(** * server.js: subscription brokering over a payment processor

    A shallow embedding of the two POST handlers of [server.js] and of
    its price lookup function: the calls the handlers make to the payment
    processor, their console output and the response each one sends.

    - JavaScript numbers are IEEE 754 binary64 values, modelled by the
      standard library's [spec_float] with [prec = 53] and [emax = 1024].
    - JavaScript strings are modelled by [string]; a character stands for
      the code unit of the same number (0 to 255).
    - The payment processor is an opaque collaborator with a state of its
      own: every call takes the processor's state and returns either a
      result object or a raised error, together with the next state.
    - A handler is a computation over a [World]: the processor's state,
      the chronological list of processor calls and the console. *)

From Stdlib Require Import ZArith String Ascii List Bool Lia.
From Stdlib Require Import Floats.SpecFloat.
Import ListNotations.

Set Warnings "-register-all".
Local Open Scope string_scope.
Local Open Scope Z_scope.

(* ================================================================== *)
(** ** JavaScript numbers *)

Module Number.

Definition prec : Z := 53.
Definition emax : Z := 1024.

Definition number : Type := spec_float.

Definition NaN : number := S754_nan.
Definition Infinity (negative : bool) : number := S754_infinity negative.

(** The Number value of a mathematical integer. *)
Definition of_Z (z : Z) : number := binary_normalize prec emax z 0 false.

(** [x * y] *)
Definition mul (x y : number) : number := SFmul prec emax x y.

(** The Number value of [m * 10^e] for [0 <= m], rounded to nearest,
    ties to even; the sign is carried apart so that "-0" is kept. *)
Definition of_decimal (negative : bool) (m e : Z) : number :=
  match m with
  | Z0 => S754_zero negative
  | Zneg _ => NaN
  | Zpos _ =>
      match e with
      | Zneg k =>
          let '(q, e', l) :=
            SFdiv_core_binary prec emax m 0 (Z.pow_pos 10 k) 0 in
          binary_round_aux prec emax negative q e' l
      | _ =>
          match m * 10 ^ e with
          | Zpos p => binary_round prec emax negative p 0
          | _ => NaN
          end
      end
  end.

Definition isNaN (x : number) : bool :=
  match x with S754_nan => true | _ => false end.

End Number.

(* ================================================================== *)
(** ** JavaScript values and property reads *)

Module JS.
Import Number.

Inductive value : Type :=
| VUndefined
| VNull
| VBool (b : bool)
| VNum (n : number)
| VStr (s : string)
| VObj (props : list (string * value))
| VArr (items : list value)
| VBuiltin (name : string).   (* a member inherited from Object.prototype *)

(** A raised error object: [error.message] and [error.type]. *)
Record error : Type := { message : string; type : value }.

Inductive completion (A : Type) : Type :=
| Normal (a : A)
| Throw (e : error).
Arguments Normal {A} a.
Arguments Throw {A} e.

(** Own property lookup of an object literal; the last definition of a
    key wins. *)
Fixpoint own (props : list (string * value)) (k : string) : option value :=
  match props with
  | [] => None
  | (k', v) :: rest =>
      match own rest k with
      | Some v' => Some v'
      | None => if String.eqb k' k then Some v else None
      end
  end.

(** The property names of [Object.prototype]. *)
Definition object_prototype : list string :=
  [ "constructor"; "__defineGetter__"; "__defineSetter__";
    "hasOwnProperty"; "__lookupGetter__"; "__lookupSetter__";
    "isPrototypeOf"; "propertyIsEnumerable"; "toString"; "valueOf";
    "__proto__"; "toLocaleString" ].

Definition inherited (k : string) : value :=
  if existsb (String.eqb k) object_prototype then VBuiltin k else VUndefined.

(** [{...}[k]]: own properties first, then the prototype. *)
Definition lookup (props : list (string * value)) (k : string) : value :=
  match own props k with
  | Some v => v
  | None => inherited k
  end.

(** null or undefined *)
Definition nullish (v : value) : bool :=
  match v with
  | VUndefined | VNull => true
  | _ => false
  end.

(** The TypeError V8 raises for a property read on null or undefined. *)
Definition TypeError_read (what k : string) : error :=
  {| message := "Cannot read properties of " ++ what
                ++ " (reading '" ++ k ++ "')";
     type := VUndefined |}.

(** [v.k] for the keys the handlers read ([payment_intent],
    [client_secret]): a primitive has no such member. *)
Definition get (v : value) (k : string) : completion value :=
  match v with
  | VUndefined => Throw (TypeError_read "undefined" k)
  | VNull => Throw (TypeError_read "null" k)
  | VObj props => Normal (lookup props k)
  | _ => Normal (inherited k)
  end.

End JS.

(* ================================================================== *)
(** ** parseFloat *)

Module ParseFloat.
Import Number.

Definition chars : Type := list ascii.

Definition code (c : ascii) : Z := Z.of_nat (nat_of_ascii c).

(** WhiteSpace and LineTerminator code units below 256:
    TAB, LF, VT, FF, CR, SP, NBSP. *)
Definition is_space (c : ascii) : bool :=
  let n := code c in
  ((9 <=? n) && (n <=? 13)) || (n =? 32) || (n =? 160).

Definition is_digit (c : ascii) : bool :=
  let n := code c in (48 <=? n) && (n <=? 57).

Definition digit_value (c : ascii) : Z := code c - 48.

Fixpoint trim_start (l : chars) : chars :=
  match l with
  | c :: rest => if is_space c then trim_start rest else l
  | [] => []
  end.

(** The longest run of decimal digits at the front, and what follows. *)
Fixpoint digits (l : chars) : chars * chars :=
  match l with
  | c :: rest =>
      if is_digit c
      then let '(ds, tl) := digits rest in (c :: ds, tl)
      else ([], l)
  | [] => ([], [])
  end.

(** The mathematical value of a run of decimal digits. *)
Definition digits_value (ds : chars) : Z :=
  fold_left (fun acc c => 10 * acc + digit_value c) ds 0.

Fixpoint starts_with (p l : chars) : bool :=
  match p, l with
  | [], _ => true
  | a :: p', b :: l' => Ascii.eqb a b && starts_with p' l'
  | _ :: _, [] => false
  end.

(** Optional sign: [(negative, rest)]. *)
Definition sign (l : chars) : bool * chars :=
  match l with
  | "+"%char :: rest => (false, rest)
  | "-"%char :: rest => (true, rest)
  | _ => (false, l)
  end.

(** ExponentPart, when complete: [e] or [E], an optional sign and at
    least one digit; otherwise the exponent is absent. *)
Definition exponent_part (l : chars) : Z :=
  match l with
  | c :: rest =>
      if (Ascii.eqb c "e" || Ascii.eqb c "E")%bool
      then
        let '(neg, rest') := sign rest in
        match digits rest' with
        | ([], _) => 0
        | (ds, _) => if neg then - digits_value ds else digits_value ds
        end
      else 0
  | [] => 0
  end.

(** The longest prefix that is a StrUnsignedDecimalLiteral other than
    Infinity, as mantissa and decimal exponent. *)
Definition unsigned_decimal (l : chars) : option (Z * Z) :=
  let '(ip, r1) := digits l in
  match r1 with
  | "."%char :: r1' =>
      let '(fp, r2) := digits r1' in
      match ip, fp with
      | [], [] => None
      | _, _ =>
          Some (digits_value (ip ++ fp)%list,
                exponent_part r2 - Z.of_nat (length fp))
      end
  | _ =>
      match ip with
      | [] => None
      | _ => Some (digits_value ip, exponent_part r1)
      end
  end.

Inductive literal : Type :=
| LInfinity (negative : bool)
| LDecimal (negative : bool) (m e : Z).

(** The longest prefix of the trimmed input that is a StrDecimalLiteral. *)
Definition str_decimal_literal (l : chars) : option literal :=
  let '(neg, rest) := sign (trim_start l) in
  if starts_with (list_ascii_of_string "Infinity") rest
  then Some (LInfinity neg)
  else match unsigned_decimal rest with
       | Some (m, e) => Some (LDecimal neg m e)
       | None => None
       end.

Definition literal_value (lit : literal) : number :=
  match lit with
  | LInfinity neg => Infinity neg
  | LDecimal neg m e => of_decimal neg m e
  end.

Definition parseFloat (s : string) : number :=
  match str_decimal_literal (list_ascii_of_string s) with
  | Some lit => literal_value lit
  | None => NaN
  end.

End ParseFloat.

(* ================================================================== *)
(** ** The payment processor *)

Module Stripe.
Import Number JS.

(** Arguments of [stripe.customers.create]. *)
Record CustomerParams : Type :=
  { cp_email : string;
    cp_name : string;
    cp_metadata_programName : string }.

(** Arguments of [stripe.prices.create]. *)
Record PriceParams : Type :=
  { unit_amount : number;
    currency : string;
    recurring_interval : string;
    product_data_name : string }.

Record SubscriptionItem : Type := { item_price : string }.

(** Arguments of [stripe.subscriptions.create]. *)
Record SubscriptionParams : Type :=
  { sp_customer : string;
    sp_items : list SubscriptionItem;
    payment_behavior : string;
    save_default_payment_method : string;
    expand : list string }.

(** The objects the processor returns, as far as the handlers read
    them. [latest_invoice] is an invoice object, an invoice id, null or
    absent, so it stays a [value]. *)
Record Customer : Type := { customer_id : string }.
Record Price : Type := { price_id : string }.
Record Subscription : Type :=
  { subscription_id : string; latest_invoice : value }.

(** A verified webhook event, in the processor's Event shape:
    [event.type] and the object [event.data.object]. *)
Record Event : Type :=
  { event_type : string; data_object : list (string * value) }.

(** One call to the processor, as recorded in the world. *)
Inductive Call : Type :=
| customers_create (p : CustomerParams)
| prices_create (p : PriceParams)
| subscriptions_create (p : SubscriptionParams)
| webhooks_constructEvent (payload : value) (sig : value) (secret : value).

(** The processor's behaviour over its own state [PS]. *)
Record Processor (PS : Type) : Type :=
  { do_customers_create :
      CustomerParams -> PS -> completion Customer * PS;
    do_prices_create :
      PriceParams -> PS -> completion Price * PS;
    do_subscriptions_create :
      SubscriptionParams -> PS -> completion Subscription * PS;
    do_constructEvent :
      value -> value -> value -> PS -> completion Event * PS }.
Arguments do_customers_create {PS} _ _ _.
Arguments do_prices_create {PS} _ _ _.
Arguments do_subscriptions_create {PS} _ _ _.
Arguments do_constructEvent {PS} _ _ _ _ _.

End Stripe.

(* ================================================================== *)
(** ** Worlds and handler computations *)

Module Handler.
Import Number JS Stripe.

Inductive LogEntry : Type :=
| console_log (args : list value)
| console_error (args : list value).

Inductive Body : Type :=
| Json (v : value)                 (* res.json(v) *)
| Text (s : string).               (* res.send(s) *)

Record Response : Type := { status : Z; body : Body }.

Section World.
Context {PS : Type}.

Record World : Type :=
  { processor_state : PS;
    calls : list Call;
    console : list LogEntry }.

Definition fresh (ps : PS) : World :=
  {| processor_state := ps; calls := []; console := [] |}.

(** A computation that may throw; effects made before a throw stay. *)
Definition M (A : Type) : Type := World -> completion A * World.

Definition ret {A} (a : A) : M A := fun w => (Normal a, w).

Definition bind {A B} (m : M A) (k : A -> M B) : M B :=
  fun w =>
    match m w with
    | (Normal a, w') => k a w'
    | (Throw e, w') => (Throw e, w')
    end.

Definition lift {A} (c : completion A) : M A := fun w => (c, w).

(** [try { body } catch (error) { handler(error) }] *)
Definition try_catch {A} (body : M A) (handler : error -> M A) : M A :=
  fun w =>
    match body w with
    | (Normal a, w') => (Normal a, w')
    | (Throw e, w') => handler e w'
    end.

Definition log (entry : LogEntry) : M unit :=
  fun w =>
    (Normal tt,
     {| processor_state := processor_state w;
        calls := calls w;
        console := console w ++ [entry] |}).

(** Make a processor call: record it and advance the processor. *)
Definition call {A} (c : Call) (run : PS -> completion A * PS) : M A :=
  fun w =>
    let '(r, ps') := run (processor_state w) in
    (r,
     {| processor_state := ps';
        calls := calls w ++ [c];
        console := console w |}).

End World.
Arguments World PS : clear implicits.
Arguments M PS A : clear implicits.

Declare Scope handler_scope.
Delimit Scope handler_scope with handler.
Notation "x <- m ;; k" := (bind m (fun x => k))
  (at level 61, m at next level, right associativity) : handler_scope.
Notation "m ;; k" := (bind m (fun _ => k))
  (at level 61, right associativity) : handler_scope.

End Handler.

(* ================================================================== *)
(** ** The application *)

Module Server.
Import Number JS ParseFloat Stripe Handler.
Local Open Scope handler_scope.

(** The JSON body of POST /create-payment-intent: four strings, as the
    front end sends them. *)
Record PaymentRequest : Type :=
  { programName : string;
    programPrice : string;
    email : string;
    name : string }.

(** POST /webhook: [req.body] as the body parsers left it (the raw
    bytes as a string, or an object when express.json() parsed it
    first) and the request headers. *)
Record WebhookRequest : Type :=
  { req_body : value; headers : list (string * value) }.

(** What the process reads from its environment. *)
Record Env : Type :=
  { STRIPE_WEBHOOK_SECRET : value; __dirname : string }.

Definition body_value (req : PaymentRequest) : value :=
  VObj [ ("programName", VStr (programName req));
         ("programPrice", VStr (programPrice req));
         ("email", VStr (email req));
         ("name", VStr (name req)) ].

Definition error_value (e : error) : value :=
  VObj [ ("message", VStr (message e)); ("type", type e) ].

Definition customer_params (req : PaymentRequest) : CustomerParams :=
  {| cp_email := email req;
     cp_name := name req;
     cp_metadata_programName := programName req |}.

Definition price_params (req : PaymentRequest) : PriceParams :=
  {| unit_amount := mul (parseFloat (programPrice req)) (of_Z 100);
     currency := "usd";
     recurring_interval := "month";
     product_data_name := programName req |}.

Definition subscription_params (customer : Customer) (price : Price)
  : SubscriptionParams :=
  {| sp_customer := customer_id customer;
     sp_items := [ {| item_price := price_id price |} ];
     payment_behavior := "default_incomplete";
     save_default_payment_method := "on_subscription";
     expand := [ "latest_invoice.payment_intent" ] |}.

(** [res.json(v)] and [res.status(code).json(v)] *)
Definition res_json (v : value) : Response :=
  {| status := 200; body := Json v |}.
Definition res_status_json (code : Z) (v : value) : Response :=
  {| status := code; body := Json v |}.
Definition res_status_send (code : Z) (s : string) : Response :=
  {| status := code; body := Text s |}.

Definition success_body (subscription : Subscription) (secret : value)
  : value :=
  VObj [ ("subscriptionId", VStr (subscription_id subscription));
         ("clientSecret", secret) ].

Definition error_body (e : error) : value :=
  VObj [ ("error", VObj [ ("message", VStr (message e));
                          ("type", type e) ]) ].

(** [subscription.latest_invoice.payment_intent.client_secret] *)
Definition client_secret_of (subscription : Subscription)
  : completion value :=
  match get (latest_invoice subscription) "payment_intent" with
  | Normal payment_intent => get payment_intent "client_secret"
  | Throw e => Throw e
  end.

(** function getPriceIdForProgram(programName) *)
Definition getPriceIdForProgram (programName : string) : value :=
  let priceIds :=
    [ ("strength", VStr "price_id_for_strength");
      ("complete", VStr "price_id_for_complete");
      ("group", VStr "price_id_for_group") ] in
  lookup priceIds programName.

(** The console line the webhook's switch writes for an event. *)
Definition event_log (event : Event) : LogEntry :=
  let object_id := lookup (data_object event) "id" in
  if String.eqb (event_type event) "customer.subscription.created"
  then console_log [VStr "New subscription created:"; object_id]
  else if String.eqb (event_type event) "invoice.payment_succeeded"
  then console_log [VStr "Payment succeeded for invoice:"; object_id]
  else if String.eqb (event_type event) "payment_intent.succeeded"
  then console_log [VStr "Payment succeeded:"; object_id]
  else console_log [VStr ("Unhandled event type " ++ event_type event)].

(** The module scope the handler closures capture: the processor
    client [stripe], the process environment, and the function bound
    to the name [getPriceIdForProgram]. *)
Record Scope (PS : Type) : Type :=
  { stripe : Processor PS;
    env : Env;
    fn_getPriceIdForProgram : string -> value }.
Arguments stripe {PS} _.
Arguments env {PS} _.
Arguments fn_getPriceIdForProgram {PS} _.

(** The scope of server.js as written. *)
Definition server {PS} (processor : Processor PS) (e : Env) : Scope PS :=
  {| stripe := processor;
     env := e;
     fn_getPriceIdForProgram := getPriceIdForProgram |}.

Section App.
Context {PS : Type}.
Variable scope : Scope PS.

(** app.post('/create-payment-intent', ...) *)
Definition create_payment_intent (req : PaymentRequest)
  : M PS Response :=
  try_catch
    (log (console_log [VStr "Received payment request:"; body_value req]) ;;
     customer <- call (customers_create (customer_params req))
                   (do_customers_create (stripe scope) (customer_params req)) ;;
     log (console_log [VStr "Customer created:";
                       VStr (customer_id customer)]) ;;
     price <- call (prices_create (price_params req))
                (do_prices_create (stripe scope) (price_params req)) ;;
     log (console_log [VStr "Price created:"; VStr (price_id price)]) ;;
     subscription <-
       call (subscriptions_create (subscription_params customer price))
         (do_subscriptions_create (stripe scope)
            (subscription_params customer price)) ;;
     log (console_log [VStr "Subscription created:";
                       VStr (subscription_id subscription)]) ;;
     secret <- lift (client_secret_of subscription) ;;
     ret (res_json (success_body subscription secret)))
    (fun error =>
       log (console_error [VStr "Error in payment intent creation:";
                           error_value error]) ;;
       ret (res_status_json 500 (error_body error))).

(** The switch on [event.type]: one console line per event. *)
Definition dispatch_event (event : Event) : M PS unit :=
  let object_id := lookup (data_object event) "id" in
  if String.eqb (event_type event) "customer.subscription.created"
  then log (console_log [VStr "New subscription created:"; object_id])
  else if String.eqb (event_type event) "invoice.payment_succeeded"
  then log (console_log [VStr "Payment succeeded for invoice:"; object_id])
  else if String.eqb (event_type event) "payment_intent.succeeded"
  then log (console_log [VStr "Payment succeeded:"; object_id])
  else log (console_log
              [VStr ("Unhandled event type " ++ event_type event)]).

(** app.post('/webhook', ...) *)
Definition webhook (req : WebhookRequest) : M PS Response :=
  let sig := lookup (headers req) "stripe-signature" in
  let secret := STRIPE_WEBHOOK_SECRET (env scope) in
  verified <-
    try_catch
      (event <- call (webhooks_constructEvent (req_body req) sig secret)
                  (do_constructEvent (stripe scope) (req_body req) sig
                     secret) ;;
       ret (inr event))
      (fun err =>
         log (console_error [VStr "Webhook Error:"; VStr (message err)]) ;;
         ret (inl (res_status_send 400
                     ("Webhook Error: " ++ message err)))) ;;
  match verified with
  | inl response => ret response
  | inr event =>
      dispatch_event event ;;
      ret (res_json (VObj [("received", VBool true)]))
  end.

End App.

(** One of the three creation calls raises [e]; [made] lists the calls
    made up to and including that one. *)
Inductive creation_fails {PS} (scope : Scope PS) (req : PaymentRequest)
  (ps : PS) : error -> list Call -> Prop :=
| customer_fails e ps1 :
    do_customers_create (stripe scope) (customer_params req) ps
    = (Throw e, ps1) ->
    creation_fails scope req ps e [customers_create (customer_params req)]
| price_fails c ps1 e ps2 :
    do_customers_create (stripe scope) (customer_params req) ps
    = (Normal c, ps1) ->
    do_prices_create (stripe scope) (price_params req) ps1
    = (Throw e, ps2) ->
    creation_fails scope req ps e
      [customers_create (customer_params req);
       prices_create (price_params req)]
| subscription_fails c ps1 p ps2 e ps3 :
    do_customers_create (stripe scope) (customer_params req) ps
    = (Normal c, ps1) ->
    do_prices_create (stripe scope) (price_params req) ps1
    = (Normal p, ps2) ->
    do_subscriptions_create (stripe scope) (subscription_params c p) ps2
    = (Throw e, ps3) ->
    creation_fails scope req ps e
      [customers_create (customer_params req);
       prices_create (price_params req);
       subscriptions_create (subscription_params c p)].

(** All three creation calls return: the customer, the price, the
    subscription and the processor's state after the third call. *)
Definition creation_succeeds {PS} (scope : Scope PS) (req : PaymentRequest)
  (ps : PS) (c : Customer) (p : Price) (s : Subscription) (ps3 : PS)
  : Prop :=
  exists ps1 ps2,
    do_customers_create (stripe scope) (customer_params req) ps
    = (Normal c, ps1) /\
    do_prices_create (stripe scope) (price_params req) ps1
    = (Normal p, ps2) /\
    do_subscriptions_create (stripe scope) (subscription_params c p) ps2
    = (Normal s, ps3).

(** Run a computation from a world with no calls and an empty console. *)
Definition run {PS A} (m : M PS A) (ps : PS) : completion A * World PS :=
  m (fresh ps).

End Server.

(* ================================================================== *)
(** ** A scripted processor for the examples *)

Module Fixtures.
Import Number JS Stripe Handler Server.

Definition card_declined : error :=
  {| message := "Your card was declined.";
     type := VStr "StripeCardError" |}.

Definition bad_signature : error :=
  {| message := "No signatures found matching the expected signature.";
     type := VStr "StripeSignatureVerificationError" |}.

(** The [k]-th creation step: it raises when the script says so, and
    the processor's state counts the calls received. *)
Definition step {A} (k : nat) (fail_at : option nat) (a : A) (n : nat)
  : completion A * nat :=
  (match fail_at with
   | Some j => if Nat.eqb j k then Throw card_declined else Normal a
   | None => Normal a
   end, S n).

(** [fail_at]: the creation step that raises, if any (0 customer,
    1 price, 2 subscription); [invoice]: the [latest_invoice] of the
    subscription returned. The signature header "good" verifies, and
    the event then takes its type tag from the payload. *)
Definition scripted (fail_at : option nat) (invoice : value)
  : Processor nat :=
  {| do_customers_create := fun _ =>
       step 0 fail_at {| customer_id := "cus_1" |};
     do_prices_create := fun _ =>
       step 1 fail_at {| price_id := "price_1" |};
     do_subscriptions_create := fun _ =>
       step 2 fail_at
         {| subscription_id := "sub_1"; latest_invoice := invoice |};
     do_constructEvent := fun payload sig _ n =>
       (match sig with
        | VStr "good" =>
            Normal {| event_type := match payload with
                                    | VStr tag => tag
                                    | _ => ""
                                    end;
                      data_object := [("id", VStr "obj_1")] |}
        | _ => Throw bad_signature
        end, S n) |}.

Definition expanded_invoice : value :=
  VObj [ ("id", VStr "in_1");
         ("payment_intent",
          VObj [ ("id", VStr "pi_1");
                 ("client_secret", VStr "pi_1_secret_abc") ]) ].

Definition test_env : Env :=
  {| STRIPE_WEBHOOK_SECRET := VStr "whsec_test"; __dirname := "/srv" |}.

Definition scope_of (fail_at : option nat) (invoice : value) : Scope nat :=
  server (scripted fail_at invoice) test_env.

Definition strength_request (price : string) : PaymentRequest :=
  {| programName := "strength";
     programPrice := price;
     email := "harley@example.com";
     name := "Harley" |}.

Definition signed_webhook (sig : string) (event_type : string)
  : WebhookRequest :=
  {| req_body := VStr event_type;
     headers := [("stripe-signature", VStr sig)] |}.

End Fixtures.

(* ================================================================== *)
(** ** Notions for the further properties *)

Module Notions.
Import Number JS ParseFloat Stripe Handler Server.

(** [-x] *)
Definition neg (x : number) : number := SFopp x.

(** A string of decimal digits only. *)
Definition all_digits (s : string) : bool :=
  forallb is_digit (list_ascii_of_string s).

(** A string of white space only. *)
Definition all_space (s : string) : bool :=
  forallb is_space (list_ascii_of_string s).

(** Text that cannot continue a decimal literal which already has its
    fraction: nothing, or something that starts with neither a digit
    nor an exponent mark. *)
Definition ends_literal (tail : string) : bool :=
  match tail with
  | EmptyString => true
  | String c _ =>
      negb (is_digit c || Ascii.eqb c "e" || Ascii.eqb c "E")
  end.

(** Text that starts as an unsigned decimal literal does: with a digit
    or the decimal point. *)
Definition starts_number (s : string) : bool :=
  match s with
  | EmptyString => false
  | String c _ => is_digit c || Ascii.eqb c "."
  end.

(** The same request with another programPrice. *)
Definition with_price (req : PaymentRequest) (price : string)
  : PaymentRequest :=
  {| programName := programName req;
     programPrice := price;
     email := email req;
     name := name req |}.

Definition is_error_line (entry : LogEntry) : bool :=
  match entry with
  | console_error _ => true
  | console_log _ => false
  end.

(** The keys of the [priceIds] literal. *)
Definition program_names : list string := ["strength"; "complete"; "group"].

End Notions.

(* ================================================================== *)
(** * Properties *)

Import Number JS ParseFloat Stripe Handler Server.

(** ** The subscription handler, step by step *)

Section CreatePaymentIntent.
Context {PS : Type}.
Variable scope : Scope PS.
Variable req : PaymentRequest.

Let C := customers_create (customer_params req).
Let P := prices_create (price_params req).
Let S_ (c : Customer) (p : Price) :=
  subscriptions_create (subscription_params c p).

Let received :=
  console_log [VStr "Received payment request:"; body_value req].
Let customer_created (c : Customer) :=
  console_log [VStr "Customer created:"; VStr (customer_id c)].
Let price_created (p : Price) :=
  console_log [VStr "Price created:"; VStr (price_id p)].
Let subscription_created (s : Subscription) :=
  console_log [VStr "Subscription created:"; VStr (subscription_id s)].
Let caught (e : error) :=
  console_error [VStr "Error in payment intent creation:"; error_value e].

Let failed (e : error) : completion Response :=
  Normal (res_status_json 500 (error_body e)).

(** The handler unfolded along the results of the processor calls. *)
Lemma create_payment_intent_run (ps : PS) :
  run (create_payment_intent scope req) ps =
  match do_customers_create (stripe scope) (customer_params req) ps with
  | (Throw e, ps1) =>
      (failed e,
       {| processor_state := ps1;
          calls := [C];
          console := [received; caught e] |})
  | (Normal c, ps1) =>
      match do_prices_create (stripe scope) (price_params req) ps1 with
      | (Throw e, ps2) =>
          (failed e,
           {| processor_state := ps2;
              calls := [C; P];
              console := [received; customer_created c; caught e] |})
      | (Normal p, ps2) =>
          match do_subscriptions_create (stripe scope)
                  (subscription_params c p) ps2 with
          | (Throw e, ps3) =>
              (failed e,
               {| processor_state := ps3;
                  calls := [C; P; S_ c p];
                  console := [received; customer_created c;
                              price_created p; caught e] |})
          | (Normal s, ps3) =>
              match client_secret_of s with
              | Throw e =>
                  (failed e,
                   {| processor_state := ps3;
                      calls := [C; P; S_ c p];
                      console := [received; customer_created c;
                                  price_created p; subscription_created s;
                                  caught e] |})
              | Normal secret =>
                  (Normal (res_json (success_body s secret)),
                   {| processor_state := ps3;
                      calls := [C; P; S_ c p];
                      console := [received; customer_created c;
                                  price_created p;
                                  subscription_created s] |})
              end
          end
      end
  end.
Proof.
  unfold run, create_payment_intent, try_catch, bind, call, log, lift, ret,
    fresh; cbn [processor_state calls console List.app].
  destruct (do_customers_create _ _ ps) as [[c|e] ps1]; [|reflexivity].
  cbn [processor_state calls console List.app].
  destruct (do_prices_create _ _ ps1) as [[p|e] ps2]; [|reflexivity].
  cbn [processor_state calls console List.app].
  destruct (do_subscriptions_create _ _ ps2) as [[s|e] ps3]; [|reflexivity].
  cbn [processor_state calls console List.app].
  destruct (client_secret_of s) as [secret|e]; reflexivity.
Qed.

End CreatePaymentIntent.

(** Every price-creation call the handler makes carries [price_params]. *)
Lemma prices_create_params {PS} (scope : Scope PS) (req : PaymentRequest)
  (ps : PS) (p : PriceParams) :
  In (prices_create p)
     (calls (snd (run (create_payment_intent scope req) ps))) ->
  p = price_params req.
Proof.
  rewrite create_payment_intent_run.
  destruct (do_customers_create _ _ ps) as [[c|e] ps1]; cbn.
  - destruct (do_prices_create _ _ ps1) as [[p'|e] ps2]; cbn.
    + destruct (do_subscriptions_create _ _ ps2) as [[s|e] ps3]; cbn;
        [destruct (client_secret_of s); cbn|];
        intros [H|[H|[H|[]]]]; try discriminate H; now inversion H.
    + intros [H|[H|[]]]; try discriminate H; now inversion H.
  - intros [H|[]]; discriminate H.
Qed.

(** ** The webhook handler, step by step *)

Lemma dispatch_event_log {PS} (event : Event) (w : World PS) :
  dispatch_event event w =
  (Normal tt,
   {| processor_state := processor_state w;
      calls := calls w;
      console := console w ++ [event_log event] |}).
Proof.
  unfold dispatch_event, event_log.
  repeat match goal with
         | |- context [String.eqb ?a ?b] => destruct (String.eqb a b)
         end; reflexivity.
Qed.

Lemma webhook_run {PS} (scope : Scope PS) (req : WebhookRequest) (ps : PS) :
  let sig := lookup (headers req) "stripe-signature" in
  let secret := STRIPE_WEBHOOK_SECRET (env scope) in
  let verify := webhooks_constructEvent (req_body req) sig secret in
  run (webhook scope req) ps =
  match do_constructEvent (stripe scope) (req_body req) sig secret ps with
  | (Throw err, ps1) =>
      (Normal (res_status_send 400 ("Webhook Error: " ++ message err)),
       {| processor_state := ps1;
          calls := [verify];
          console := [console_error [VStr "Webhook Error:";
                                     VStr (message err)]] |})
  | (Normal event, ps1) =>
      (Normal (res_json (VObj [("received", VBool true)])),
       {| processor_state := ps1;
          calls := [verify];
          console := [event_log event] |})
  end.
Proof.
  intros sig secret verify.
  unfold run, webhook, try_catch, bind, call, ret, fresh.
  fold sig secret. cbn [processor_state calls console].
  destruct (do_constructEvent _ _ sig secret ps) as [[event|err] ps1].
  - rewrite dispatch_event_log. reflexivity.
  - reflexivity.
Qed.

(* ================================================================== *)
(** ** The amount forwarded to the processor *)

(** C1. When the request's programPrice is the string "29.99", the
    unit_amount of every price-creation call the handler makes is exactly
    the Number 2999: parseFloat gives the double nearest to 29.99, and
    its product with 100 rounds to 2999 with no fractional residue. *)
Theorem unit_amount_of_29_99 {PS} (scope : Scope PS) (req : PaymentRequest)
  (ps : PS) (p : PriceParams) :
  programPrice req = "29.99" ->
  In (prices_create p)
     (calls (snd (run (create_payment_intent scope req) ps))) ->
  unit_amount p = of_Z 2999.
Proof.
  intros Hprice Hcall.
  rewrite (prices_create_params scope req ps p Hcall).
  unfold price_params; cbn [unit_amount].
  rewrite Hprice. vm_compute. reflexivity.
Qed.

Lemma unit_amount_of_29_99_witness :
  unit_amount (price_params (Fixtures.strength_request "29.99")) = of_Z 2999.
Proof.
  apply (unit_amount_of_29_99
           (Fixtures.scope_of None Fixtures.expanded_invoice)
           (Fixtures.strength_request "29.99") 0%nat).
  - reflexivity.
  - vm_compute. right; left; reflexivity.
Defined.

(* ================================================================== *)
(** ** Failures of the processor calls *)

(** C2. When the customer-creation call raises, the handler answers with
    status 500, and the customer call is the only processor call it has
    made: neither a price nor a subscription creation is attempted. *)
Theorem customer_failure_stops_the_handler {PS} (scope : Scope PS)
  (req : PaymentRequest) (ps ps1 : PS) (e : error) :
  do_customers_create (stripe scope) (customer_params req) ps
  = (Throw e, ps1) ->
  (exists response,
      fst (run (create_payment_intent scope req) ps) = Normal response /\
      status response = 500) /\
  calls (snd (run (create_payment_intent scope req) ps))
  = [customers_create (customer_params req)] /\
  (forall p, ~ In (prices_create p)
                  (calls (snd (run (create_payment_intent scope req) ps)))) /\
  (forall p, ~ In (subscriptions_create p)
                  (calls (snd (run (create_payment_intent scope req) ps)))).
Proof.
  intros Hc. rewrite create_payment_intent_run, Hc; cbn.
  split; [eexists; split; reflexivity|].
  split; [reflexivity|].
  split; intros p [H|[]]; discriminate H.
Qed.

Lemma customer_failure_stops_the_handler_witness :
  calls (snd (run (create_payment_intent
                     (Fixtures.scope_of (Some 0%nat) VNull)
                     (Fixtures.strength_request "29.99")) 0%nat))
  = [customers_create
       (customer_params (Fixtures.strength_request "29.99"))].
Proof.
  apply (customer_failure_stops_the_handler
           (Fixtures.scope_of (Some 0%nat) VNull)
           (Fixtures.strength_request "29.99") 0%nat 1%nat
           Fixtures.card_declined).
  reflexivity.
Defined.

(** C5. When any of the three creation calls raises an error, the
    handler answers with status 500 and the body
    {error: {message, type}} built from that error's own message and
    type, whichever step it was; the calls it has made are the creation
    calls up to the failing one and nothing after it, so no record
    already created is cleaned up. *)
Theorem any_failure_is_reported_verbatim {PS} (scope : Scope PS)
  (req : PaymentRequest) (ps : PS) (e : error) (made : list Call) :
  creation_fails scope req ps e made ->
  fst (run (create_payment_intent scope req) ps)
  = Normal {| status := 500;
              body := Json (VObj [("error",
                                   VObj [("message", VStr (message e));
                                         ("type", type e)])]) |} /\
  calls (snd (run (create_payment_intent scope req) ps)) = made.
Proof.
  intros Hfail. rewrite create_payment_intent_run.
  destruct Hfail as [e ps1 Hc | c ps1 e ps2 Hc Hp | c ps1 p ps2 e ps3 Hc Hp Hs].
  - rewrite Hc. split; reflexivity.
  - rewrite Hc, Hp. split; reflexivity.
  - rewrite Hc, Hp, Hs. split; reflexivity.
Qed.

Lemma any_failure_is_reported_verbatim_witness :
  fst (run (create_payment_intent
              (Fixtures.scope_of (Some 1%nat) VNull)
              (Fixtures.strength_request "29.99")) 0%nat)
  = Normal {| status := 500;
              body := Json (VObj [("error",
                                   VObj [("message",
                                          VStr "Your card was declined.");
                                         ("type",
                                          VStr "StripeCardError")])]) |} /\
  calls (snd (run (create_payment_intent
                     (Fixtures.scope_of (Some 1%nat) VNull)
                     (Fixtures.strength_request "29.99")) 0%nat))
  = [customers_create (customer_params (Fixtures.strength_request "29.99"));
     prices_create (price_params (Fixtures.strength_request "29.99"))].
Proof.
  apply (any_failure_is_reported_verbatim
           (Fixtures.scope_of (Some 1%nat) VNull)
           (Fixtures.strength_request "29.99") 0%nat Fixtures.card_declined).
  apply (price_fails _ _ _ {| customer_id := "cus_1" |} 1%nat
           Fixtures.card_declined 2%nat); reflexivity.
Defined.

(* ================================================================== *)
(** ** The successful path *)

(** C3. When the three creation calls all return, the handler has made
    exactly three processor calls, in the order customer, price,
    subscription; the price call names its product after the request's
    programName, and the subscription call binds the id of the customer
    returned by the first call to the id of the price returned by the
    second. *)
Theorem three_calls_in_order {PS} (scope : Scope PS) (req : PaymentRequest)
  (ps ps3 : PS) (c : Customer) (p : Price) (s : Subscription) :
  creation_succeeds scope req ps c p s ps3 ->
  calls (snd (run (create_payment_intent scope req) ps))
  = [customers_create (customer_params req);
     prices_create (price_params req);
     subscriptions_create (subscription_params c p)] /\
  product_data_name (price_params req) = programName req /\
  sp_customer (subscription_params c p) = customer_id c /\
  sp_items (subscription_params c p) = [ {| item_price := price_id p |} ].
Proof.
  intros (ps1 & ps2 & Hc & Hp & Hs).
  rewrite create_payment_intent_run, Hc, Hp, Hs.
  destruct (client_secret_of s); cbn; repeat split.
Qed.

Lemma three_calls_in_order_witness :
  calls (snd (run (create_payment_intent
                     (Fixtures.scope_of None Fixtures.expanded_invoice)
                     (Fixtures.strength_request "29.99")) 0%nat))
  = [customers_create
       (customer_params (Fixtures.strength_request "29.99"));
     prices_create (price_params (Fixtures.strength_request "29.99"));
     subscriptions_create
       (subscription_params {| customer_id := "cus_1" |}
          {| price_id := "price_1" |})].
Proof.
  apply (three_calls_in_order
           (Fixtures.scope_of None Fixtures.expanded_invoice)
           (Fixtures.strength_request "29.99") 0%nat 3%nat
           {| customer_id := "cus_1" |} {| price_id := "price_1" |}
           {| subscription_id := "sub_1";
              latest_invoice := Fixtures.expanded_invoice |}).
  exists 1%nat, 2%nat. repeat split.
Defined.

(** C4. When the three creation calls all return and the subscription's
    expanded latest_invoice.payment_intent can be read, the handler
    answers 200 with the body {subscriptionId, clientSecret} and nothing
    else in it: subscriptionId is the id of the subscription returned,
    clientSecret the client_secret of that payment intent. *)
Theorem success_response {PS} (scope : Scope PS) (req : PaymentRequest)
  (ps ps3 : PS) (c : Customer) (p : Price) (s : Subscription)
  (payment_intent secret : value) :
  creation_succeeds scope req ps c p s ps3 ->
  get (latest_invoice s) "payment_intent" = Normal payment_intent ->
  get payment_intent "client_secret" = Normal secret ->
  fst (run (create_payment_intent scope req) ps)
  = Normal {| status := 200;
              body := Json (VObj [("subscriptionId",
                                   VStr (subscription_id s));
                                  ("clientSecret", secret)]) |}.
Proof.
  intros (ps1 & ps2 & Hc & Hp & Hs) Hpi Hsecret.
  rewrite create_payment_intent_run, Hc, Hp, Hs.
  unfold client_secret_of. rewrite Hpi, Hsecret. reflexivity.
Qed.

Lemma success_response_witness :
  fst (run (create_payment_intent
              (Fixtures.scope_of None Fixtures.expanded_invoice)
              (Fixtures.strength_request "29.99")) 0%nat)
  = Normal {| status := 200;
              body := Json (VObj [("subscriptionId", VStr "sub_1");
                                  ("clientSecret",
                                   VStr "pi_1_secret_abc")]) |}.
Proof.
  apply (success_response
           (Fixtures.scope_of None Fixtures.expanded_invoice)
           (Fixtures.strength_request "29.99") 0%nat 3%nat
           {| customer_id := "cus_1" |} {| price_id := "price_1" |}
           {| subscription_id := "sub_1";
              latest_invoice := Fixtures.expanded_invoice |}
           (VObj [ ("id", VStr "pi_1");
                   ("client_secret", VStr "pi_1_secret_abc") ])).
  - exists 1%nat, 2%nat. repeat split.
  - reflexivity.
  - reflexivity.
Defined.

(** C10. When the three creation calls all return but the subscription's
    latest_invoice, or the payment_intent of that invoice, is null or
    undefined, reading client_secret raises a TypeError inside the try
    block: the handler itself completes normally, and its answer is
    status 500 with the body {error: {message, type}} of that TypeError,
    not a success response. *)
Theorem missing_payment_intent_is_caught {PS} (scope : Scope PS)
  (req : PaymentRequest) (ps ps3 : PS) (c : Customer) (p : Price)
  (s : Subscription) :
  creation_succeeds scope req ps c p s ps3 ->
  nullish (latest_invoice s) = true \/
  (exists payment_intent,
      get (latest_invoice s) "payment_intent" = Normal payment_intent /\
      nullish payment_intent = true) ->
  exists e,
    client_secret_of s = Throw e /\
    fst (run (create_payment_intent scope req) ps)
    = Normal {| status := 500;
                body := Json (VObj [("error",
                                     VObj [("message", VStr (message e));
                                           ("type", type e)])]) |}.
Proof.
  intros (ps1 & ps2 & Hc & Hp & Hs) Hmissing.
  assert (exists e, client_secret_of s = Throw e) as [e He].
  { unfold client_secret_of.
    destruct Hmissing as [Hnull | (payment_intent & Hpi & Hnull)].
    - destruct (latest_invoice s); try discriminate Hnull;
        eexists; reflexivity.
    - rewrite Hpi.
      destruct payment_intent; try discriminate Hnull;
        eexists; reflexivity. }
  exists e. split; [exact He|].
  rewrite create_payment_intent_run, Hc, Hp, Hs, He. reflexivity.
Qed.

Lemma missing_payment_intent_is_caught_witness :
  exists e,
    client_secret_of {| subscription_id := "sub_1";
                        latest_invoice := VObj [("id", VStr "in_1")] |}
    = Throw e /\
    fst (run (create_payment_intent
                (Fixtures.scope_of None (VObj [("id", VStr "in_1")]))
                (Fixtures.strength_request "29.99")) 0%nat)
    = Normal {| status := 500;
                body := Json (VObj [("error",
                                     VObj [("message", VStr (message e));
                                           ("type", type e)])]) |}.
Proof.
  apply (missing_payment_intent_is_caught
           (Fixtures.scope_of None (VObj [("id", VStr "in_1")]))
           (Fixtures.strength_request "29.99") 0%nat 3%nat
           {| customer_id := "cus_1" |} {| price_id := "price_1" |}).
  - exists 1%nat, 2%nat. repeat split.
  - right. exists VUndefined. split; reflexivity.
Defined.

(* ================================================================== *)
(** ** The webhook *)

(** C6. When the signature verification raises, the handler answers 400
    with the plain text "Webhook Error: " followed by the error's
    message, and does nothing more: the verification is its only
    processor call, the error line is the only console output, and the
    console line of the event-type switch is written for no event. *)
Theorem invalid_signature_is_rejected {PS} (scope : Scope PS)
  (req : WebhookRequest) (ps ps1 : PS) (err : error) :
  do_constructEvent (stripe scope) (req_body req)
    (lookup (headers req) "stripe-signature")
    (STRIPE_WEBHOOK_SECRET (env scope)) ps
  = (Throw err, ps1) ->
  fst (run (webhook scope req) ps)
  = Normal {| status := 400;
              body := Text ("Webhook Error: " ++ message err) |} /\
  snd (run (webhook scope req) ps)
  = {| processor_state := ps1;
       calls := [webhooks_constructEvent (req_body req)
                   (lookup (headers req) "stripe-signature")
                   (STRIPE_WEBHOOK_SECRET (env scope))];
       console := [console_error [VStr "Webhook Error:";
                                  VStr (message err)]] |} /\
  (forall event,
      ~ In (event_log event) (console (snd (run (webhook scope req) ps)))).
Proof.
  intros Hverify. rewrite webhook_run; cbv zeta. rewrite Hverify; cbn.
  repeat split.
  intros event [H|[]]. unfold event_log in H.
  repeat match type of H with
         | context [String.eqb ?a ?b] => destruct (String.eqb a b)
         end; discriminate H.
Qed.

Lemma invalid_signature_is_rejected_witness :
  fst (run (webhook (Fixtures.scope_of None VNull)
              (Fixtures.signed_webhook "forged" "payment_intent.succeeded"))
         0%nat)
  = Normal {| status := 400;
              body := Text ("Webhook Error: "
                            ++ message Fixtures.bad_signature) |}.
Proof.
  apply (invalid_signature_is_rejected (Fixtures.scope_of None VNull)
           (Fixtures.signed_webhook "forged" "payment_intent.succeeded")
           0%nat 1%nat Fixtures.bad_signature).
  reflexivity.
Defined.

(** C7. When the signature verifies, the handler answers 200 with the
    body {received: true} whatever the event's type tag is, recognised
    or not; the event decides only the one console line written. *)
Theorem verified_event_is_acknowledged {PS} (scope : Scope PS)
  (req : WebhookRequest) (ps ps1 : PS) (event : Event) :
  do_constructEvent (stripe scope) (req_body req)
    (lookup (headers req) "stripe-signature")
    (STRIPE_WEBHOOK_SECRET (env scope)) ps
  = (Normal event, ps1) ->
  fst (run (webhook scope req) ps)
  = Normal {| status := 200;
              body := Json (VObj [("received", VBool true)]) |} /\
  snd (run (webhook scope req) ps)
  = {| processor_state := ps1;
       calls := [webhooks_constructEvent (req_body req)
                   (lookup (headers req) "stripe-signature")
                   (STRIPE_WEBHOOK_SECRET (env scope))];
       console := [event_log event] |}.
Proof.
  intros Hverify. rewrite webhook_run; cbv zeta. rewrite Hverify.
  split; reflexivity.
Qed.

Lemma verified_event_is_acknowledged_witness :
  fst (run (webhook (Fixtures.scope_of None VNull)
              (Fixtures.signed_webhook "good" "charge.refunded")) 0%nat)
  = Normal {| status := 200;
              body := Json (VObj [("received", VBool true)]) |}.
Proof.
  apply (verified_event_is_acknowledged (Fixtures.scope_of None VNull)
           (Fixtures.signed_webhook "good" "charge.refunded") 0%nat 1%nat
           {| event_type := "charge.refunded";
              data_object := [("id", VStr "obj_1")] |}).
  reflexivity.
Defined.

(* ================================================================== *)
(** ** When parseFloat gives NaN *)

Section RoundingIsNumeric.

Lemma shr_1_nonneg (mrs : shr_record) :
  0 <= shr_m mrs -> 0 <= shr_m (shr_1 mrs).
Proof.
  destruct mrs as [m r s]; cbn [shr_m].
  destruct m as [|[q|q|]|q]; cbn; lia.
Qed.

Lemma iter_shr_1_nonneg (n : positive) :
  forall mrs, 0 <= shr_m mrs -> 0 <= shr_m (iter_pos shr_1 n mrs).
Proof.
  induction n as [n IH|n IH|]; intros mrs Hm; cbn [iter_pos].
  - apply IH, IH, shr_1_nonneg, Hm.
  - apply IH, IH, Hm.
  - apply shr_1_nonneg, Hm.
Qed.

Lemma shr_fexp_nonneg (m e : Z) (l : location) :
  0 <= m -> 0 <= shr_m (fst (shr_fexp prec emax m e l)).
Proof.
  intros Hm. unfold shr_fexp, shr.
  assert (0 <= shr_m (shr_record_of_loc m l)) as H0
      by (destruct l as [|[]]; exact Hm).
  destruct (fexp prec emax (Zdigits2 m + e) - e); cbn [fst]; auto.
  apply iter_shr_1_nonneg, H0.
Qed.

Lemma round_nearest_even_nonneg (m : Z) (l : location) :
  0 <= m -> 0 <= round_nearest_even m l.
Proof.
  intros Hm. destruct l as [|[]]; cbn; try lia.
  destruct (Z.even m); lia.
Qed.

(** Rounding a non-negative mantissa never gives NaN. *)
Lemma binary_round_aux_numeric (s : bool) (m e : Z) (l : location) :
  0 <= m -> binary_round_aux prec emax s m e l <> S754_nan.
Proof.
  intros Hm. unfold binary_round_aux.
  pose proof (shr_fexp_nonneg m e l Hm) as H1.
  destruct (shr_fexp prec emax m e l) as [mrs' e']; cbn [fst] in H1.
  pose proof (shr_fexp_nonneg _ e' loc_Exact
                (round_nearest_even_nonneg _ (loc_of_shr_record mrs') H1))
    as H2.
  destruct (shr_fexp prec emax _ e' loc_Exact) as [mrs'' e''];
    cbn [fst] in H2.
  destruct (shr_m mrs'') as [|q|q]; [discriminate| |lia].
  destruct (e'' <=? emax - prec); discriminate.
Qed.

Lemma of_decimal_numeric (negative : bool) (m e : Z) :
  0 <= m -> of_decimal negative m e <> NaN.
Proof.
  intros Hm. unfold of_decimal, NaN.
  destruct m as [|m|m]; [discriminate| |lia].
  destruct e as [|k|k].
  - rewrite Z.pow_0_r, Z.mul_1_r.
    unfold binary_round.
    destruct (shl_align _ _ _) as [mz ez].
    apply binary_round_aux_numeric; lia.
  - assert (0 < Z.pos m * 10 ^ Z.pos k) as Hpos
        by (apply Z.mul_pos_pos; [lia | apply Z.pow_pos_nonneg; lia]).
    destruct (Z.pos m * 10 ^ Z.pos k) as [|q|q]; try lia.
    unfold binary_round.
    destruct (shl_align _ _ _) as [mz ez].
    apply binary_round_aux_numeric; lia.
  - unfold SFdiv_core_binary.
    set (m' := match _ with Z.pos _ => _ | _ => _ end).
    assert (0 <= m') as Hm'.
    { subst m'.
      destruct (_ - _ - _) as [|q|q]; try lia.
      apply Z.shiftl_nonneg; lia. }
    assert (0 < Z.pow_pos 10 k) as Hten
        by (apply (Z.pow_pos_nonneg 10 (Z.pos k)); lia).
    pose proof (Z.div_pos m' (Z.pow_pos 10 k) Hm' Hten) as Hq.
    unfold Z.div in Hq.
    destruct (Z.div_eucl m' (Z.pow_pos 10 k)) as [q r]; cbn [fst] in Hq.
    apply binary_round_aux_numeric, Hq.
Qed.

End RoundingIsNumeric.

Lemma digits_are_digits (l : chars) :
  Forall (fun c => is_digit c = true) (fst (digits l)).
Proof.
  induction l as [|c rest IH]; cbn [digits]; [constructor|].
  destruct (is_digit c) eqn:Hc; [|constructor].
  destruct (digits rest) as [ds tl]; cbn [fst] in *.
  constructor; assumption.
Qed.

Lemma fold_digits_nonneg (ds : chars) :
  Forall (fun c => is_digit c = true) ds ->
  forall acc, 0 <= acc ->
  0 <= fold_left (fun acc c => 10 * acc + digit_value c) ds acc.
Proof.
  induction 1 as [|c ds Hc _ IH]; intros acc Hacc; cbn [fold_left];
    [exact Hacc|].
  apply IH. unfold is_digit in Hc. unfold digit_value. lia.
Qed.

Lemma unsigned_decimal_nonneg (l : chars) (m e : Z) :
  unsigned_decimal l = Some (m, e) -> 0 <= m.
Proof.
  unfold unsigned_decimal.
  pose proof (digits_are_digits l) as Hip.
  destruct (digits l) as [ip r1]; cbn [fst] in Hip.
  assert (forall fp, Forall (fun c => is_digit c = true) fp ->
                     0 <= digits_value (ip ++ fp)%list) as Hall.
  { intros fp Hfp. apply fold_digits_nonneg; [|lia].
    apply Forall_app; split; assumption. }
  assert (0 <= digits_value ip) as Hint
      by (apply fold_digits_nonneg; [assumption|lia]).
  destruct r1 as [|c r1'].
  - destruct ip; intros H; inversion H; subst; exact Hint.
  - destruct (Ascii.eqb_spec c "."%char) as [->|Hne].
    + pose proof (digits_are_digits r1') as Hfp.
      destruct (digits r1') as [fp r2]; cbn [fst] in Hfp.
      destruct ip, fp; intros H; inversion H; subst; apply Hall, Hfp.
    + assert (match c with
              | "."%char => false
              | _ => true
              end = true) as Hc.
      { destruct c as [[] [] [] [] [] [] [] []]; try reflexivity.
        now elim Hne. }
      destruct c as [[] [] [] [] [] [] [] []]; try discriminate Hc;
        destruct ip; intros H; inversion H; subst; exact Hint.
Qed.

(** [parseFloat] gives NaN exactly when the trimmed input has no prefix
    that is a decimal literal. *)
Lemma parseFloat_NaN (s : string) :
  parseFloat s = NaN <-> str_decimal_literal (list_ascii_of_string s) = None.
Proof.
  unfold parseFloat.
  destruct (str_decimal_literal (list_ascii_of_string s)) as [lit|] eqn:Hlit;
    [|split; reflexivity].
  split; [|discriminate].
  intros Hnan. exfalso.
  unfold str_decimal_literal in Hlit.
  destruct (sign _) as [neg rest].
  destruct (starts_with _ rest).
  - inversion Hlit; subst. discriminate Hnan.
  - destruct (unsigned_decimal rest) as [[m e]|] eqn:Hdec; [|discriminate].
    inversion Hlit; subst.
    apply (of_decimal_numeric neg m e); [|exact Hnan].
    apply (unsigned_decimal_nonneg rest m e Hdec).
Qed.

(** C8. When the request's programPrice is a string parseFloat cannot
    convert (it gives NaN), the handler raises no validation error of
    its own: it starts with the customer call as for any other request
    and, once that call has returned, makes the price-creation call with
    the unit_amount parseFloat(programPrice) * 100, which is NaN; no
    price-creation call it makes carries anything else. *)
Theorem non_numeric_price_is_forwarded {PS} (scope : Scope PS)
  (req : PaymentRequest) (ps : PS) :
  parseFloat (programPrice req) = NaN ->
  let w := snd (run (create_payment_intent scope req) ps) in
  hd_error (calls w) = Some (customers_create (customer_params req)) /\
  (forall c ps1,
      do_customers_create (stripe scope) (customer_params req) ps
      = (Normal c, ps1) ->
      exists p,
        nth_error (calls w) 1 = Some (prices_create p) /\
        unit_amount p = mul (parseFloat (programPrice req)) (of_Z 100) /\
        isNaN (unit_amount p) = true) /\
  (forall p, In (prices_create p) (calls w) -> unit_amount p = NaN).
Proof.
  intros Hnan w.
  assert (unit_amount (price_params req) = NaN) as Hamount
      by (unfold price_params; cbn [unit_amount]; rewrite Hnan; reflexivity).
  split; [|split].
  - subst w. rewrite create_payment_intent_run.
    destruct (do_customers_create _ _ ps) as [[c|e] ps1]; [|reflexivity].
    destruct (do_prices_create _ _ ps1) as [[p|e] ps2]; [|reflexivity].
    destruct (do_subscriptions_create _ _ ps2) as [[s|e] ps3]; [|reflexivity].
    destruct (client_secret_of s); reflexivity.
  - intros c ps1 Hc. exists (price_params req).
    split; [|split; [reflexivity | rewrite Hamount; reflexivity]].
    subst w. rewrite create_payment_intent_run, Hc.
    destruct (do_prices_create _ _ ps1) as [[p|e] ps2]; [|reflexivity].
    destruct (do_subscriptions_create _ _ ps2) as [[s|e] ps3]; [|reflexivity].
    destruct (client_secret_of s); reflexivity.
  - intros p Hin. subst w.
    rewrite (prices_create_params scope req ps p Hin). exact Hamount.
Qed.

Lemma non_numeric_price_is_forwarded_witness :
  exists p,
    nth_error
      (calls (snd (run (create_payment_intent
                          (Fixtures.scope_of None Fixtures.expanded_invoice)
                          (Fixtures.strength_request "free")) 0%nat))) 1
    = Some (prices_create p) /\
    unit_amount p = mul (parseFloat "free") (of_Z 100) /\
    isNaN (unit_amount p) = true.
Proof.
  exact (proj1 (proj2 (non_numeric_price_is_forwarded
                         (Fixtures.scope_of None Fixtures.expanded_invoice)
                         (Fixtures.strength_request "free") 0%nat eq_refl))
           {| customer_id := "cus_1" |} 1%nat eq_refl).
Defined.


(* ================================================================== *)
(** * Further properties of the handlers *)

Import Notions.

(** X6. The subscription handler answers 200 exactly when the three
    creation calls return and the client secret of the returned
    subscription can be read; in every other case the answer is not a
    success. *)
Theorem success_exactly_when_all_steps_succeed {PS} (scope : Scope PS)
  (req : PaymentRequest) (ps : PS) :
  (exists response,
      fst (run (create_payment_intent scope req) ps) = Normal response /\
      status response = 200) <->
  (exists c p s ps3 secret,
      creation_succeeds scope req ps c p s ps3 /\
      client_secret_of s = Normal secret).
Proof.
  rewrite create_payment_intent_run. unfold creation_succeeds.
  destruct (do_customers_create _ _ ps) as [[c|e] ps1].
  2:{ split.
      - intros (r & Hr & Hs). inversion Hr; subst. discriminate Hs.
      - intros (c & p & s & ps3 & secret & (q1 & q2 & H & _) & _).
        discriminate H. }
  destruct (do_prices_create _ _ ps1) as [[p|e] ps2] eqn:Hp.
  2:{ split.
      - intros (r & Hr & Hs). inversion Hr; subst. discriminate Hs.
      - intros (c' & p' & s & ps3 & secret & (q1 & q2 & H1 & H2 & _) & _).
        inversion H1; subst. rewrite Hp in H2. discriminate H2. }
  destruct (do_subscriptions_create _ _ ps2) as [[s|e] ps3] eqn:Hs.
  2:{ split.
      - intros (r & Hr & Hst). inversion Hr; subst. discriminate Hst.
      - intros (c' & p' & s & ps3' & secret
                & (q1 & q2 & H1 & H2 & H3) & _).
        inversion H1; subst. rewrite Hp in H2. inversion H2; subst.
        rewrite Hs in H3. discriminate H3. }
  destruct (client_secret_of s) as [secret|e] eqn:Hsec.
  - split.
    + intros _. exists c, p, s, ps3, secret. split; [|exact Hsec].
      exists ps1, ps2. repeat split; assumption.
    + intros _. eexists; split; reflexivity.
  - split.
    + intros (r & Hr & Hst). inversion Hr; subst. discriminate Hst.
    + intros (c' & p' & s' & ps3' & secret
              & (q1 & q2 & H1 & H2 & H3) & Hsec').
      inversion H1; subst. rewrite Hp in H2. inversion H2; subst.
      rewrite Hs in H3. inversion H3; subst.
      rewrite Hsec in Hsec'. discriminate Hsec'.
Qed.

(** X7. The processor calls of the subscription handler are always a
    non-empty initial part of customer, price, subscription: the
    customer call is made for every request, before the price is even
    converted, and nothing is ever called besides these three. *)
Theorem calls_are_a_prefix_of_the_three_steps {PS} (scope : Scope PS)
  (req : PaymentRequest) (ps : PS) :
  exists c p k,
    (1 <= k <= 3)%nat /\
    calls (snd (run (create_payment_intent scope req) ps))
    = firstn k [customers_create (customer_params req);
                prices_create (price_params req);
                subscriptions_create (subscription_params c p)].
Proof.
  rewrite create_payment_intent_run.
  pose (c0 := {| customer_id := "" |}). pose (p0 := {| price_id := "" |}).
  destruct (do_customers_create _ _ ps) as [[c|e] ps1];
    [|exists c0, p0, 1%nat; split; [lia | reflexivity]].
  destruct (do_prices_create _ _ ps1) as [[p|e] ps2];
    [|exists c, p0, 2%nat; split; [lia | reflexivity]].
  exists c, p, 3%nat. split; [lia|].
  destruct (do_subscriptions_create _ _ ps2) as [[s|e] ps3];
    [destruct (client_secret_of s)|]; reflexivity.
Qed.

(** X9. The subscription handler writes an error line to the console
    exactly when it answers 500: one such line for a 500, none for a
    200. *)
Theorem every_failure_is_logged_once {PS} (scope : Scope PS)
  (req : PaymentRequest) (ps : PS) :
  exists response,
    fst (run (create_payment_intent scope req) ps) = Normal response /\
    length (filter is_error_line
              (console (snd (run (create_payment_intent scope req) ps))))
    = if status response =? 500 then 1%nat else 0%nat.
Proof.
  rewrite create_payment_intent_run.
  destruct (do_customers_create _ _ ps) as [[c|e] ps1];
    [|eexists; split; reflexivity].
  destruct (do_prices_create _ _ ps1) as [[p|e] ps2];
    [|eexists; split; reflexivity].
  destruct (do_subscriptions_create _ _ ps2) as [[s|e] ps3];
    [|eexists; split; reflexivity].
  destruct (client_secret_of s) as [secret|e]; eexists; split; reflexivity.
Qed.

(* ================================================================== *)
(** ** Reading the client secret *)

(** X10. Reading subscription.latest_invoice.payment_intent.client_secret
    raises exactly when latest_invoice is null or undefined, or its
    payment_intent is; the error raised then carries no type. *)
Theorem client_secret_raises_exactly_when_missing (s : Subscription) :
  ((exists e, client_secret_of s = Throw e) <->
   (nullish (latest_invoice s) = true \/
    exists payment_intent,
      get (latest_invoice s) "payment_intent" = Normal payment_intent /\
      nullish payment_intent = true)) /\
  (forall e, client_secret_of s = Throw e -> type e = VUndefined).
Proof.
  unfold client_secret_of.
  destruct (get (latest_invoice s) "payment_intent") as [pi|e0] eqn:Hget.
  - assert (nullish (latest_invoice s) = false) as Hli
        by (destruct (latest_invoice s); try reflexivity; discriminate Hget).
    split.
    + split.
      * intros [e He]. right. exists pi. split; [reflexivity|].
        destruct pi; try reflexivity; discriminate He.
      * intros [Hnull | (pi' & Hpi & Hnull)]; [congruence|].
        inversion Hpi; subst pi'.
        destruct pi; try discriminate Hnull; eexists; reflexivity.
    + intros e He. destruct pi; inversion He; reflexivity.
  - assert (nullish (latest_invoice s) = true /\ type e0 = VUndefined)
      as [Hli Hty]
        by (destruct (latest_invoice s); inversion Hget; split; reflexivity).
    split.
    + split; [intros _; left; exact Hli | intros _; eexists; reflexivity].
    + intros e He. inversion He; subst. exact Hty.
Qed.

(** X11. When the three creation calls return but latest_invoice is
    still an invoice id (a string, not the expanded invoice), the
    handler answers 500 with the message of the TypeError for reading
    client_secret of undefined, and an undefined type. *)
Theorem unexpanded_invoice_gives_500 {PS} (scope : Scope PS)
  (req : PaymentRequest) (ps ps3 : PS) (c : Customer) (p : Price)
  (s : Subscription) (invoice_id : string) :
  creation_succeeds scope req ps c p s ps3 ->
  latest_invoice s = VStr invoice_id ->
  fst (run (create_payment_intent scope req) ps)
  = Normal
      {| status := 500;
         body :=
           Json (VObj
                   [("error",
                     VObj [("message",
                            VStr "Cannot read properties of undefined (reading 'client_secret')");
                           ("type", VUndefined)])]) |}.
Proof.
  intros (ps1 & ps2 & Hc & Hp & Hs) Hli.
  rewrite create_payment_intent_run, Hc, Hp, Hs.
  unfold client_secret_of. rewrite Hli. reflexivity.
Qed.

Lemma unexpanded_invoice_gives_500_witness :
  fst (run (create_payment_intent
              (Fixtures.scope_of None (VStr "in_1"))
              (Fixtures.strength_request "29.99")) 0%nat)
  = Normal
      {| status := 500;
         body :=
           Json (VObj
                   [("error",
                     VObj [("message",
                            VStr "Cannot read properties of undefined (reading 'client_secret')");
                           ("type", VUndefined)])]) |}.
Proof.
  apply (unexpanded_invoice_gives_500
           (Fixtures.scope_of None (VStr "in_1"))
           (Fixtures.strength_request "29.99") 0%nat 3%nat
           {| customer_id := "cus_1" |} {| price_id := "price_1" |}
           {| subscription_id := "sub_1"; latest_invoice := VStr "in_1" |}
           "in_1").
  - exists 1%nat, 2%nat. repeat split.
  - reflexivity.
Defined.

(* ================================================================== *)
(** ** The webhook, for every request *)

(** X12. Whatever the processor's verification does, the webhook
    handler completes normally, makes the verification call and no
    other processor call, writes exactly one console line, and answers
    200 when the verification returned an event and 400 when it
    raised. *)
Theorem webhook_always_responds {PS} (scope : Scope PS)
  (req : WebhookRequest) (ps : PS) :
  let sig := lookup (headers req) "stripe-signature" in
  let secret := STRIPE_WEBHOOK_SECRET (env scope) in
  exists response,
    fst (run (webhook scope req) ps) = Normal response /\
    status response
    = match fst (do_constructEvent (stripe scope) (req_body req) sig
                   secret ps) with
      | Normal _ => 200
      | Throw _ => 400
      end /\
    calls (snd (run (webhook scope req) ps))
    = [webhooks_constructEvent (req_body req) sig secret] /\
    length (console (snd (run (webhook scope req) ps))) = 1%nat.
Proof.
  intros sig secret. rewrite webhook_run; cbv zeta. fold sig secret.
  destruct (do_constructEvent _ _ sig secret ps) as [[event|err] ps1];
    eexists; repeat split.
Qed.

(* ================================================================== *)
(** ** The price lookup table, for every name *)

Lemma inherited_undefined (k : string) :
  inherited k = VUndefined <-> ~ In k object_prototype.
Proof.
  unfold inherited.
  destruct (existsb (String.eqb k) object_prototype) eqn:Hex.
  - split; [discriminate|]. intros Hnot. exfalso. apply Hnot.
    apply existsb_exists in Hex as (x & Hin & Heq).
    apply String.eqb_eq in Heq. now subst.
  - split; [|reflexivity]. intros _ Hin.
    assert (existsb (String.eqb k) object_prototype = true) as Habs
        by (apply existsb_exists; exists k; split;
            [exact Hin | apply String.eqb_refl]).
    congruence.
Qed.

(** X15. getPriceIdForProgram gives a price-identifier string for
    exactly the three names 'strength', 'complete' and 'group', each
    with its own placeholder; for no other name is the result a
    string. *)
Theorem price_lookup_gives_ids_for_three_names
  (programName id : string) :
  getPriceIdForProgram programName = VStr id <->
  (programName = "strength" /\ id = "price_id_for_strength") \/
  (programName = "complete" /\ id = "price_id_for_complete") \/
  (programName = "group" /\ id = "price_id_for_group").
Proof.
  unfold getPriceIdForProgram, lookup, inherited; cbn [own].
  destruct (String.eqb_spec "group" programName) as [<-|Hg].
  { split.
    - intros H; inversion H; auto.
    - intros [[H _]|[[H _]|[_ ->]]]; try discriminate H; reflexivity. }
  destruct (String.eqb_spec "complete" programName) as [<-|Hc].
  { split.
    - intros H; inversion H; auto.
    - intros [[H _]|[[_ ->]|[H _]]]; try discriminate H; reflexivity. }
  destruct (String.eqb_spec "strength" programName) as [<-|Hs].
  { split.
    - intros H; inversion H; auto.
    - intros [[_ ->]|[[H _]|[H _]]]; try discriminate H; reflexivity. }
  split.
  - destruct (existsb _ _); discriminate.
  - intros [[H _]|[[H _]|[H _]]]; congruence.
Qed.

(** X13. getPriceIdForProgram gives undefined exactly for the names that
    are neither a key of its table nor a property of Object.prototype:
    for an inherited name such as 'toString' or 'constructor' the lookup
    gives the inherited member, not undefined. *)
Theorem price_lookup_of_other_names :
  (forall programName,
      getPriceIdForProgram programName = VUndefined <->
      ~ In programName program_names /\
      ~ In programName object_prototype) /\
  (forall programName,
      In programName object_prototype ->
      getPriceIdForProgram programName = VBuiltin programName).
Proof.
  split.
  - intros programName.
    unfold getPriceIdForProgram, lookup, program_names; cbn [own].
    destruct (String.eqb_spec "group" programName) as [<-|Hg];
      [split; [discriminate | intros [H _]; exfalso; apply H; cbn; auto]|].
    destruct (String.eqb_spec "complete" programName) as [<-|Hc];
      [split; [discriminate | intros [H _]; exfalso; apply H; cbn; auto]|].
    destruct (String.eqb_spec "strength" programName) as [<-|Hs];
      [split; [discriminate | intros [H _]; exfalso; apply H; cbn; auto]|].
    rewrite inherited_undefined. split.
    + intros Hnot. split; [|exact Hnot].
      intros [H|[H|[H|[]]]]; congruence.
    + intros [_ Hnot]. exact Hnot.
  - intros programName Hin. unfold object_prototype in Hin.
    repeat (destruct Hin as [<-|Hin]; [reflexivity|]).
    destruct Hin.
Qed.

(* ================================================================== *)
(** * Further properties of the amount forwarded *)

Lemma hundred : of_Z 100 = S754_finite false 7036874417766400 (-46).
Proof. vm_compute. reflexivity. Qed.

Lemma mul_hundred_NaN (x : number) : mul x (of_Z 100) = NaN <-> x = NaN.
Proof.
  rewrite hundred. unfold mul, NaN.
  destruct x as [sx|sx| |sx mx ex]; cbn [SFmul];
    try (split; intros H; (discriminate H || reflexivity)).
  split; [|discriminate]. intros H. exfalso.
  revert H. apply binary_round_aux_numeric. lia.
Qed.

(** X1. The unit_amount the handler builds is NaN exactly when the
    programPrice, after its leading white space, does not start with a
    decimal literal; a price that merely starts with a number is
    converted, and what follows the number is ignored. *)
Theorem unit_amount_NaN_exactly_without_numeric_prefix
  (req : PaymentRequest) :
  isNaN (unit_amount (price_params req)) = true <->
  str_decimal_literal (list_ascii_of_string (programPrice req)) = None.
Proof.
  unfold price_params; cbn [unit_amount].
  rewrite <- parseFloat_NaN, <- mul_hundred_NaN.
  destruct (mul (parseFloat (programPrice req)) (of_Z 100));
    split; intros H; (discriminate H || reflexivity).
Qed.

(** ** Leading white space *)

Lemma list_ascii_of_string_app (a b : string) :
  list_ascii_of_string (a ++ b)
  = (list_ascii_of_string a ++ list_ascii_of_string b)%list.
Proof.
  induction a as [|c a IH]; cbn; [reflexivity | now rewrite IH].
Qed.

Lemma trim_start_app (ws l : chars) :
  forallb is_space ws = true -> trim_start (ws ++ l)%list = trim_start l.
Proof.
  induction ws as [|c ws IH]; cbn [forallb List.app trim_start];
    [reflexivity|].
  intros H. apply andb_prop in H as [Hc Hws]. rewrite Hc. now apply IH.
Qed.

(** X2. White space in front of the programPrice does not change the
    amount forwarded: the conversion skips it. *)
Theorem leading_space_is_ignored (req : PaymentRequest) (ws : string) :
  all_space ws = true ->
  price_params (with_price req (ws ++ programPrice req)) = price_params req.
Proof.
  intros Hws. unfold price_params, with_price;
    cbn [programName programPrice].
  f_equal. f_equal. unfold parseFloat, str_decimal_literal.
  now rewrite list_ascii_of_string_app, trim_start_app.
Qed.

Lemma leading_space_is_ignored_witness :
  price_params (with_price (Fixtures.strength_request "29.99")
                  ("  " ++ "29.99"))
  = price_params (Fixtures.strength_request "29.99").
Proof.
  apply (leading_space_is_ignored (Fixtures.strength_request "29.99") "  ").
  reflexivity.
Defined.

(** ** The sign of the price *)

Lemma binary_round_aux_negb (s : bool) (m e : Z) (l : location) :
  binary_round_aux prec emax (negb s) m e l
  = SFopp (binary_round_aux prec emax s m e l).
Proof.
  unfold binary_round_aux.
  destruct (shr_fexp prec emax m e l) as [mrs' e'].
  destruct (shr_fexp prec emax _ e' loc_Exact) as [mrs'' e''].
  destruct (shr_m mrs''); [reflexivity| |reflexivity].
  destruct (e'' <=? emax - prec); reflexivity.
Qed.

Lemma of_decimal_negative (m e : Z) :
  of_decimal true m e = neg (of_decimal false m e).
Proof.
  unfold of_decimal, neg.
  destruct m as [|m|m]; [reflexivity| |reflexivity].
  destruct e as [|k|k].
  - destruct (Z.pos m * 10 ^ 0); try reflexivity.
    unfold binary_round. destruct (shl_align _ _ _).
    apply (binary_round_aux_negb false).
  - destruct (Z.pos m * 10 ^ Z.pos k); try reflexivity.
    unfold binary_round. destruct (shl_align _ _ _).
    apply (binary_round_aux_negb false).
  - destruct (SFdiv_core_binary _ _ _ _ _ _) as [[q e'] l].
    apply (binary_round_aux_negb false).
Qed.

Lemma mul_neg (x y : number) : mul (neg x) y = neg (mul x y).
Proof.
  unfold mul, neg.
  destruct x as [sx|sx| |sx mx ex], y as [sy|sy| |sy my ey];
    cbn [SFmul SFopp]; try reflexivity;
    try (destruct sx, sy; reflexivity).
  rewrite <- binary_round_aux_negb. now destruct sx, sy.
Qed.

Lemma number_start (c : ascii) (l : chars) :
  (is_digit c || Ascii.eqb c ".")%bool = true ->
  is_space c = false /\ sign (c :: l) = (false, c :: l).
Proof.
  destruct c as [[] [] [] [] [] [] [] []]; intros H;
    try discriminate H; split; reflexivity.
Qed.

(** X3. The sign of the price is not checked: putting a minus sign in
    front of a programPrice that starts with a digit or a decimal point
    negates the amount forwarded. *)
Theorem minus_sign_negates_the_amount (req : PaymentRequest)
  (price : string) :
  starts_number price = true ->
  unit_amount (price_params (with_price req ("-" ++ price)))
  = neg (unit_amount (price_params (with_price req price))).
Proof.
  intros Hstart. unfold price_params, with_price;
    cbn [unit_amount programPrice].
  rewrite <- mul_neg. f_equal.
  destruct price as [|c rest]; [discriminate Hstart|].
  cbn [starts_number] in Hstart.
  unfold parseFloat, str_decimal_literal.
  cbn [append list_ascii_of_string].
  destruct (number_start c (list_ascii_of_string rest) Hstart)
    as [Hspace Hsign].
  change (trim_start ("-"%char :: ?l)) with ("-"%char :: l).
  cbn [trim_start]. rewrite Hspace, Hsign. cbn [sign].
  destruct (starts_with _ _); [reflexivity|].
  destruct (unsigned_decimal _) as [[m e]|]; [|reflexivity].
  apply of_decimal_negative.
Qed.

Lemma minus_sign_negates_the_amount_witness :
  unit_amount (price_params
                 (with_price (Fixtures.strength_request "0") "-29.99"))
  = neg (of_Z 2999).
Proof.
  apply (minus_sign_negates_the_amount (Fixtures.strength_request "0")
           "29.99").
  reflexivity.
Defined.

(** ** Text after the number *)

Lemma digits_app_stop (ds rest : chars) :
  forallb is_digit ds = true ->
  match rest with
  | [] => true
  | c :: _ => negb (is_digit c)
  end = true ->
  digits (ds ++ rest)%list = (ds, rest).
Proof.
  intros Hds Hrest.
  induction ds as [|d ds IH]; cbn [List.app digits].
  - destruct rest as [|c rest]; [reflexivity|].
    cbn [digits]. apply negb_true_iff in Hrest. now rewrite Hrest.
  - cbn [forallb] in Hds. apply andb_prop in Hds as [Hd Hds].
    rewrite Hd, (IH Hds). reflexivity.
Qed.

Lemma digit_start (c : ascii) (l : chars) :
  is_digit c = true ->
  trim_start (c :: l) = c :: l /\
  sign (c :: l) = (false, c :: l) /\
  starts_with (list_ascii_of_string "Infinity") (c :: l) = false.
Proof.
  intros Hc.
  destruct (number_start c l) as [Hspace Hsign];
    [now rewrite Hc|].
  cbn [trim_start]. rewrite Hspace. repeat split; [exact Hsign|].
  destruct c as [[] [] [] [] [] [] [] []]; try discriminate Hc; reflexivity.
Qed.

Lemma exponent_part_absent (tail : string) :
  ends_literal tail = true ->
  exponent_part (list_ascii_of_string tail) = 0 /\
  match list_ascii_of_string tail with
  | [] => true
  | c :: _ => negb (is_digit c)
  end = true.
Proof.
  destruct tail as [|c tail]; cbn [ends_literal list_ascii_of_string];
    [split; reflexivity|].
  intros H. apply negb_true_iff in H.
  apply orb_false_iff in H as [H HE]. apply orb_false_iff in H as [Hd He].
  split; [|now rewrite Hd].
  unfold exponent_part. now rewrite He, HE.
Qed.

(** X4. Text after the number is not checked either: when the
    programPrice is digits, a decimal point, further digits (possibly
    none) and then anything that starts with neither a digit nor an
    exponent mark, the price parameters are those of the number alone. *)
Theorem text_after_the_number_is_ignored (req : PaymentRequest)
  (units cents tail : string) :
  all_digits units = true -> units <> "" ->
  all_digits cents = true ->
  ends_literal tail = true ->
  price_params (with_price req (units ++ "." ++ cents ++ tail))
  = price_params (with_price req (units ++ "." ++ cents)).
Proof.
  intros Hunits Hne Hcents Htail.
  unfold price_params, with_price; cbn [programName programPrice].
  f_equal. f_equal. unfold parseFloat, str_decimal_literal.
  rewrite !list_ascii_of_string_app.
  change (list_ascii_of_string ".") with ["."%char].
  cbn [List.app].
  unfold all_digits in Hunits, Hcents.
  destruct (exponent_part_absent tail Htail) as [Hexp Hstop].
  set (U := list_ascii_of_string units) in *.
  set (C := list_ascii_of_string cents) in *.
  set (T := list_ascii_of_string tail) in *.
  assert (exists c U', U = c :: U' /\ is_digit c = true)
    as (c & U' & HU & Hc).
  { subst U. destruct units as [|c units]; [congruence|].
    cbn [list_ascii_of_string forallb] in *.
    apply andb_prop in Hunits as [Hc _].
    now exists c, (list_ascii_of_string units). }
  assert (forall rest,
             str_decimal_literal (U ++ "."%char :: rest)%list
             = match unsigned_decimal (U ++ "."%char :: rest)%list with
               | Some (m, e) => Some (LDecimal false m e)
               | None => None
               end) as Hlit.
  { intros rest. unfold str_decimal_literal. rewrite HU. cbn [List.app].
    destruct (digit_start c (U' ++ "."%char :: rest)%list Hc)
      as (Htrim & Hsign & Hinf).
    now rewrite Htrim, Hsign, Hinf. }
  fold (str_decimal_literal (U ++ "."%char :: C ++ T)%list).
  fold (str_decimal_literal (U ++ "."%char :: C)%list).
  rewrite !Hlit.
  assert (forall rest,
             unsigned_decimal (U ++ "."%char :: rest)%list
             = let '(fp, r2) := digits rest in
               Some (digits_value (U ++ fp)%list,
                     exponent_part r2 - Z.of_nat (length fp))) as Hdec.
  { intros rest. unfold unsigned_decimal.
    rewrite (digits_app_stop U ("."%char :: rest) Hunits eq_refl).
    destruct (digits rest) as [fp r2]. rewrite HU. reflexivity. }
  rewrite !Hdec.
  rewrite (digits_app_stop C T Hcents Hstop).
  rewrite <- (app_nil_r C) at 3.
  rewrite (digits_app_stop C [] Hcents eq_refl).
  rewrite Hexp. reflexivity.
Qed.

Lemma text_after_the_number_is_ignored_witness :
  price_params (with_price (Fixtures.strength_request "0")
                  ("29" ++ "." ++ "99" ++ " USD"))
  = price_params (with_price (Fixtures.strength_request "0")
                    ("29" ++ "." ++ "99")).
Proof.
  apply (text_after_the_number_is_ignored (Fixtures.strength_request "0")
           "29" "99" " USD").
  - reflexivity.
  - discriminate.
  - reflexivity.
  - reflexivity.
Defined.

(* ================================================================== *)
(** ** A webhook request without a signature header *)

(** X14. The webhook handler does not check that the stripe-signature
    header is present: when the request has no such header it still
    makes the verification call, with undefined as the signature, and
    leaves the decision to the processor's verification. *)
Theorem missing_signature_header_is_passed_on {PS} (scope : Scope PS)
  (req : WebhookRequest) (ps : PS) :
  own (headers req) "stripe-signature" = None ->
  calls (snd (run (webhook scope req) ps))
  = [webhooks_constructEvent (req_body req) VUndefined
       (STRIPE_WEBHOOK_SECRET (env scope))].
Proof.
  intros Hmissing. rewrite webhook_run; cbv zeta.
  unfold lookup. rewrite Hmissing. change (inherited _) with VUndefined.
  destruct (do_constructEvent _ _ _ _ ps) as [[event|err] ps1];
    reflexivity.
Qed.

Lemma missing_signature_header_is_passed_on_witness :
  calls (snd (run (webhook (Fixtures.scope_of None VNull)
                     {| req_body := VStr "{}"; headers := [] |}) 0%nat))
  = [webhooks_constructEvent (VStr "{}") VUndefined (VStr "whsec_test")].
Proof.
  apply (missing_signature_header_is_passed_on
           (Fixtures.scope_of None VNull)
           {| req_body := VStr "{}"; headers := [] |} 0%nat).
  reflexivity.
Defined.
